(** * aiolava: the Lava API client (src/aiolava/lava.py)

    A shallow embedding of the [Lava] class: the eleven endpoint
    methods, the [validate_arguments] decorator that guards seven of them,
    and the shared dispatcher [_request].

    Python objects are an inductive type, dictionaries are insertion-ordered
    association lists, exceptions are the [Raise] case of a result type, and
    the two pieces of state a call can touch (the default [data={}] object of
    [_request], shared by every call that omits [data], and the network) are
    threaded explicitly through a state-and-error monad. *)

From Stdlib Require Import List String Ascii Bool ZArith Lia.
From Stdlib Require Import SpecFloat.
Import ListNotations.

Local Open Scope string_scope.
Local Open Scope list_scope.

Set Warnings "-register-all".

(** ** Python values *)

(** The objects that occur in the module: JSON-shaped data, and the
    module-level object [typing.Dict] that [_request] compares against. *)
Inductive pyobj : Type :=
| PyNone
| PyBool (b : bool)
| PyInt (z : Z)
| PyFloat (f : spec_float)
| PyStr (s : string)
| PyList (xs : list pyobj)
| PyDict (kvs : list (string * pyobj))
| PyTypingDict.

(** A [dict] with [str] keys, in insertion order. *)
Definition dict : Type := list (string * pyobj).

(** What a JSON decoder can produce. *)
Inductive json : Type :=
| JNull
| JBool (b : bool)
| JInt (z : Z)
| JFloat (f : spec_float)
| JStr (s : string)
| JArr (xs : list json)
| JObj (kvs : list (string * json)).

(** The Python object [json.loads] builds for a document. *)
Fixpoint to_py (j : json) : pyobj :=
  match j with
  | JNull => PyNone
  | JBool b => PyBool b
  | JInt z => PyInt z
  | JFloat f => PyFloat f
  | JStr s => PyStr s
  | JArr xs => PyList (map to_py xs)
  | JObj kvs => PyDict (map (fun kv => (fst kv, to_py (snd kv))) kvs)
  end.

(** [x is None] *)
Definition is_None (x : pyobj) : bool :=
  match x with PyNone => true | _ => false end.

(** [x is Dict], with [Dict] the name imported from [typing]: identity with
    that one object. *)
Definition is_Dict (x : pyobj) : bool :=
  match x with PyTypingDict => true | _ => false end.

(** [x == s] for a string literal [s]. *)
Definition eq_str (x : pyobj) (s : string) : bool :=
  match x with PyStr t => String.eqb t s | _ => false end.

(** ** Dictionaries *)

Fixpoint dict_get (d : dict) (k : string) : option pyobj :=
  match d with
  | [] => None
  | (k', v) :: d' => if String.eqb k' k then Some v else dict_get d' k
  end.

(** [d.pop(k)] for a key that is present. *)
Fixpoint dict_pop (k : string) (d : dict) : dict :=
  match d with
  | [] => []
  | (k', v) :: d' => if String.eqb k' k then d' else (k', v) :: dict_pop k d'
  end.

(** [d[k] = v]: overwrite in place, or append a new entry. *)
Fixpoint dict_set (d : dict) (k : string) (v : pyobj) : dict :=
  match d with
  | [] => [(k, v)]
  | (k', v') :: d' =>
      if String.eqb k' k then (k', v) :: d' else (k', v') :: dict_set d' k v
  end.

(** A display [{k1: v1, ..., kn: vn}], evaluated left to right. *)
Definition dict_display (items : list (string * pyobj)) : dict :=
  fold_left (fun d kv => dict_set d (fst kv) (snd kv)) items [].

(** [list(d)] *)
Definition keys (d : dict) : list string := map fst d.

(** ** Exceptions and results *)

(** Failures raised by aiohttp or by the JSON decoder behind
    [responce.json()]. *)
Inductive transport_exn : Type :=
| ClientConnectorError
| ServerTimeoutError
| ContentTypeError
| JSONDecodeError.

Inductive exn : Type :=
| ValidationError                      (* pydantic.ValidationError *)
| TransportError (e : transport_exn)   (* propagated from aiohttp unchanged *)
| LavaError (msg : string)
| KeyError (key : string)
| TypeError
| AttributeError.

Inductive result (A : Type) : Type :=
| Ok (a : A)
| Raise (e : exn).
Arguments Ok {A} a.
Arguments Raise {A} e.

(** ** The outside world *)

(** One call of [session.request(method, url, headers=headers, data=data)]. *)
Record request : Type := mkRequest {
  req_method : string;
  req_url : string;
  req_headers : list (string * string);
  req_data : dict
}.

(** A response object: what [await responce.json()] will give. *)
Inductive ClientResponse : Type :=
| Response (decoded : transport_exn + json).

(** The remote side, as seen from one request. *)
Definition network : Type := request -> transport_exn + ClientResponse.

(** The state a call can read or change: the dictionary that is the default
    value of [_request]'s [data] parameter (one object for the life of the
    module), and the log of the HTTP requests issued so far. *)
Record world : Type := mkWorld {
  default_data : dict;
  sent : list request
}.

Definition initial_world : world := {| default_data := []; sent := [] |}.

(** ** State and exceptions *)

Definition M (A : Type) : Type := world -> result A * world.

Definition ret {A} (a : A) : M A := fun w => (Ok a, w).

Definition raise {A} (e : exn) : M A := fun w => (Raise e, w).

Definition bind {A B} (m : M A) (k : A -> M B) : M B :=
  fun w =>
    match m w with
    | (Ok a, w') => k a w'
    | (Raise e, w') => (Raise e, w')
    end.

Notation "x <- m ;; k" := (bind m (fun x => k))
  (at level 61, m at next level, right associativity).
Notation "m ;;; k" := (bind m (fun _ => k))
  (at level 61, right associativity).

Definition lift {A} (r : result A) : M A := fun w => (r, w).

(** ** Third-party code the module calls *)

(** pydantic's field validators: [None] when the value is rejected, the
    coerced value otherwise.  [HttpUrl] is a subclass of [str]. *)
Class Pydantic : Type := {
  str_validator : pyobj -> option string;
  int_validator : pyobj -> option Z;
  float_validator : pyobj -> option spec_float;
  HttpUrl_validate : pyobj -> option string
}.

(** The builtin behind a replacement field of an f-string. *)
Class Builtins : Type := {
  format : pyobj -> string
}.

(** The annotations that occur in the signatures. *)
Inductive annotation : Type :=
| Str
| Int
| Float
| HttpUrl
| Optional (a : annotation).

Section Client.

Context {pydantic : Pydantic} {builtins : Builtins}.
Variable net : network.

(** Validation of one argument against its annotation.  [Optional[T]] lets
    [None] through and hands anything else to [T]. *)
Fixpoint validate (a : annotation) (x : pyobj) : option pyobj :=
  match a with
  | Str => option_map PyStr (str_validator x)
  | Int => option_map PyInt (int_validator x)
  | Float => option_map PyFloat (float_validator x)
  | HttpUrl => option_map PyStr (HttpUrl_validate x)
  | Optional a' => if is_None x then Some PyNone else validate a' x
  end.

(** One parameter of a function decorated with [@validate_arguments]: the
    body sees the coerced value, the caller sees [ValidationError].  The
    decorator checks every argument before the body runs and reports all
    rejections in one [ValidationError]; checking them in turn and stopping
    at the first rejection raises the same exception in the same world. *)
Definition arg (a : annotation) (x : pyobj) : M pyobj :=
  match validate a x with
  | Some v => ret v
  | None => raise ValidationError
  end.

(** ** The class *)

Record Lava : Type := mkLava { api_key : string }.

Definition path_prefix : string := "https://api.lava.ru".

Definition __init__ (api_key : string) : M Lava :=
  ret {| api_key := api_key |}.

(** The [data] argument of [_request]: the shared default object, or the
    dictionary the caller has just built. *)
Inductive data_arg : Type :=
| Default
| Passed (d : dict).

Definition load (data : data_arg) : M dict :=
  fun w =>
    match data with
    | Default => (Ok (default_data w), w)
    | Passed d => (Ok d, w)
    end.

Definition store (data : data_arg) (d : dict) : M unit :=
  fun w =>
    match data with
    | Default => (Ok tt, {| default_data := d; sent := sent w |})
    | Passed _ => (Ok tt, w)
    end.

(** [for key in ks: if data[key] is None: data.pop(key)] *)
Fixpoint pop_None (ks : list string) (data : dict) : result dict :=
  match ks with
  | [] => Ok data
  | key :: ks' =>
      match dict_get data key with
      | None => Raise (KeyError key)
      | Some v =>
          if is_None v then pop_None ks' (dict_pop key data)
          else pop_None ks' data
      end
  end.

(** [session.request(method, url, headers=headers, data=data)] *)
Definition session_request (method url : string)
    (headers : list (string * string)) (data : dict) : M ClientResponse :=
  fun w =>
    let r := {| req_method := method; req_url := url;
                req_headers := headers; req_data := data |} in
    let w' := {| default_data := default_data w; sent := sent w ++ [r] |} in
    match net r with
    | inl e => (Raise (TransportError e), w')
    | inr responce => (Ok responce, w')
    end.

(** [await responce.json()] *)
Definition responce_json (responce : ClientResponse) : M pyobj :=
  match responce with
  | Response (inl e) => raise (TransportError e)
  | Response (inr j) => ret (to_py j)
  end.

(** [x.get(k)].  On a [dict] it is the lookup with default [None].
    [typing.Dict] forwards the attribute to the class [dict], and calling
    that unbound method with a [str] is a [TypeError].  The other objects
    have no attribute [get]. *)
Definition get (x : pyobj) (k : string) : result pyobj :=
  match x with
  | PyDict kvs =>
      match dict_get kvs k with Some v => Ok v | None => Ok PyNone end
  | PyTypingDict => Raise TypeError
  | _ => Raise AttributeError
  end.

(** [x[k]] for a string [k]. *)
Definition getitem (x : pyobj) (k : string) : result pyobj :=
  match x with
  | PyDict kvs =>
      match dict_get kvs k with Some v => Ok v | None => Raise (KeyError k) end
  | _ => Raise TypeError
  end.

Definition _request (self : Lava) (method path : string) (data : data_arg)
  : M pyobj :=
  let url := (path_prefix ++ path)%string in
  let headers := [("Authorization", api_key self)] in
  d <- load data ;;
  d <- lift (pop_None (keys d) d) ;;
  store data d ;;;
  responce <- session_request method url headers d ;;
  result <- responce_json responce ;;
  if is_Dict result then
    status <- lift (get result "status") ;;
    if eq_str status "error" then
      code <- lift (getitem result "code") ;;
      messge <- lift (getitem result "messge") ;;
      raise (LavaError (format code ++ ": " ++ format messge)%string)
    else ret result
  else ret result.

(** ** The endpoint methods

    A parameter with a default is passed explicitly; leaving it out is
    passing [PyNone].  The methods without [@validate_arguments] take no
    argument besides [self]. *)

Definition test_ping (self : Lava) : M pyobj :=
  let method := "GET" in
  let path := "/test/ping" in
  _request self method path Default.

Definition wallet_list (self : Lava) : M pyobj :=
  let method := "GET" in
  let path := "/wallet/list" in
  _request self method path Default.

Definition withdraw_create (self : Lava)
    (account amount service wallet_to order_id hook_url substract comment
       : pyobj) : M pyobj :=
  account <- arg Str account ;;
  amount <- arg Float amount ;;
  service <- arg Str service ;;
  wallet_to <- arg Str wallet_to ;;
  order_id <- arg (Optional Str) order_id ;;
  hook_url <- arg (Optional HttpUrl) hook_url ;;
  substract <- arg (Optional Int) substract ;;
  comment <- arg (Optional Str) comment ;;
  let method := "POST" in
  let path := "/withdraw/create" in
  let data := dict_display [
    ("account", account);
    ("amount", amount);
    ("service", service);
    ("wallet_to", wallet_to);
    ("order_id", order_id);
    ("hook_url", hook_url);
    ("substract", substract);
    ("comment", comment)
  ] in
  _request self method path (Passed data).

Definition withdraw_info (self : Lava) (id : pyobj) : M pyobj :=
  id <- arg Str id ;;
  let method := "POST" in
  let path := "/withdraw/info" in
  let data := dict_display [("id", id)] in
  _request self method path (Passed data).

(** [comment: str = None]: a field whose default is [None] is optional. *)
Definition transfer_create (self : Lava)
    (account_from account_to amount subtract comment : pyobj) : M pyobj :=
  account_from <- arg Str account_from ;;
  account_to <- arg Str account_to ;;
  amount <- arg Float amount ;;
  subtract <- arg (Optional Int) subtract ;;
  comment <- arg (Optional Str) comment ;;
  let method := "POST" in
  let path := "/transfer/create" in
  let data := dict_display [
    ("account_from", account_from);
    ("account_to", account_to);
    ("amount", amount);
    ("subtract", subtract);
    ("comment", comment)
  ] in
  _request self method path (Passed data).

Definition transfer_info (self : Lava) (id : pyobj) : M pyobj :=
  id <- arg Str id ;;
  let method := "POST" in
  let path := "/transfer/info" in
  let data := dict_display [("id", id)] in
  _request self method path (Passed data).

Definition transactions_list (self : Lava)
    (transfer_type account period_start period_end offset limit : pyobj)
  : M pyobj :=
  transfer_type <- arg (Optional Str) transfer_type ;;
  account <- arg (Optional Str) account ;;
  period_start <- arg (Optional Str) period_start ;;
  period_end <- arg (Optional Str) period_end ;;
  offset <- arg (Optional Int) offset ;;
  limit <- arg (Optional Int) limit ;;
  let method := "POST" in
  let path := "/transactions/list" in
  let data := dict_display [
    ("transfer_type", transfer_type);
    ("account", account);
    ("period_start", period_start);
    ("period_end", period_end);
    ("offset", offset);
    ("limit", limit)
  ] in
  _request self method path (Passed data).

Definition invoice_create (self : Lava)
    (wallet_to sum order_id hook_url success_url fail_url exprire substract
       custom_fields comment merchant_id merchant_name : pyobj) : M pyobj :=
  wallet_to <- arg Str wallet_to ;;
  sum <- arg Float sum ;;
  order_id <- arg (Optional Str) order_id ;;
  hook_url <- arg (Optional HttpUrl) hook_url ;;
  success_url <- arg (Optional HttpUrl) success_url ;;
  fail_url <- arg (Optional HttpUrl) fail_url ;;
  exprire <- arg (Optional Int) exprire ;;
  substract <- arg (Optional Int) substract ;;
  custom_fields <- arg (Optional Str) custom_fields ;;
  comment <- arg (Optional Str) comment ;;
  merchant_id <- arg (Optional Str) merchant_id ;;
  merchant_name <- arg (Optional Str) merchant_name ;;
  let method := "POST" in
  let path := "/invoice/create" in
  let data := dict_display [
    ("wallet_to", wallet_to);
    ("sum", sum);
    ("order_id", order_id);
    ("hook_url", hook_url);
    ("success_url", success_url);
    ("fail_url", fail_url);
    ("exprire", exprire);
    ("substract", substract);
    ("custom_fields", custom_fields);
    ("comment", comment);
    ("merchant_id", merchant_id);
    ("merchant_name", merchant_name)
  ] in
  _request self method path (Passed data).

Definition invoice_info (self : Lava) (id order_id : pyobj) : M pyobj :=
  id <- arg (Optional Str) id ;;
  order_id <- arg (Optional Str) order_id ;;
  let method := "POST" in
  let path := "/invoice/info" in
  let data := dict_display [("id", id); ("order_id", order_id)] in
  _request self method path (Passed data).

Definition invoice_set_webhook (self : Lava) (url : pyobj) : M pyobj :=
  url <- arg HttpUrl url ;;
  let method := "POST" in
  let path := "/invoice/set-webhook" in
  let data := dict_display [("url", url)] in
  _request self method path (Passed data).

Definition invoice_generate_secret_key (self : Lava) : M pyobj :=
  let method := "GET" in
  let path := "/invoice/generate-secret-key" in
  _request self method path Default.

(** ** Calls as data *)

(** One call of an endpoint method, with the arguments the caller passes. *)
Inductive call : Type :=
| Test_ping
| Wallet_list
| Withdraw_create
    (account amount service wallet_to order_id hook_url substract comment
       : pyobj)
| Withdraw_info (id : pyobj)
| Transfer_create (account_from account_to amount subtract comment : pyobj)
| Transfer_info (id : pyobj)
| Transactions_list
    (transfer_type account period_start period_end offset limit : pyobj)
| Invoice_create
    (wallet_to sum order_id hook_url success_url fail_url exprire substract
       custom_fields comment merchant_id merchant_name : pyobj)
| Invoice_info (id order_id : pyobj)
| Invoice_set_webhook (url : pyobj)
| Invoice_generate_secret_key.

Definition invoke (self : Lava) (c : call) : M pyobj :=
  match c with
  | Test_ping => test_ping self
  | Wallet_list => wallet_list self
  | Withdraw_create a1 a2 a3 a4 a5 a6 a7 a8 =>
      withdraw_create self a1 a2 a3 a4 a5 a6 a7 a8
  | Withdraw_info a1 => withdraw_info self a1
  | Transfer_create a1 a2 a3 a4 a5 => transfer_create self a1 a2 a3 a4 a5
  | Transfer_info a1 => transfer_info self a1
  | Transactions_list a1 a2 a3 a4 a5 a6 =>
      transactions_list self a1 a2 a3 a4 a5 a6
  | Invoice_create a1 a2 a3 a4 a5 a6 a7 a8 a9 a10 a11 a12 =>
      invoice_create self a1 a2 a3 a4 a5 a6 a7 a8 a9 a10 a11 a12
  | Invoice_info a1 a2 => invoice_info self a1 a2
  | Invoice_set_webhook a1 => invoice_set_webhook self a1
  | Invoice_generate_secret_key => invoice_generate_secret_key self
  end.

(** The parameters of the method a call goes to, as its [def] line declares
    them, each with the argument the call passes. *)
Definition parameters (c : call) : list (string * annotation * pyobj) :=
  match c with
  | Test_ping | Wallet_list | Invoice_generate_secret_key => []
  | Withdraw_create account amount service wallet_to order_id hook_url
      substract comment =>
      [("account", Str, account); ("amount", Float, amount);
       ("service", Str, service); ("wallet_to", Str, wallet_to);
       ("order_id", Optional Str, order_id);
       ("hook_url", Optional HttpUrl, hook_url);
       ("substract", Optional Int, substract);
       ("comment", Optional Str, comment)]
  | Withdraw_info id => [("id", Str, id)]
  | Transfer_create account_from account_to amount subtract comment =>
      [("account_from", Str, account_from); ("account_to", Str, account_to);
       ("amount", Float, amount); ("subtract", Optional Int, subtract);
       ("comment", Optional Str, comment)]
  | Transfer_info id => [("id", Str, id)]
  | Transactions_list transfer_type account period_start period_end offset
      limit =>
      [("transfer_type", Optional Str, transfer_type);
       ("account", Optional Str, account);
       ("period_start", Optional Str, period_start);
       ("period_end", Optional Str, period_end);
       ("offset", Optional Int, offset); ("limit", Optional Int, limit)]
  | Invoice_create wallet_to sum order_id hook_url success_url fail_url
      exprire substract custom_fields comment merchant_id merchant_name =>
      [("wallet_to", Str, wallet_to); ("sum", Float, sum);
       ("order_id", Optional Str, order_id);
       ("hook_url", Optional HttpUrl, hook_url);
       ("success_url", Optional HttpUrl, success_url);
       ("fail_url", Optional HttpUrl, fail_url);
       ("exprire", Optional Int, exprire);
       ("substract", Optional Int, substract);
       ("custom_fields", Optional Str, custom_fields);
       ("comment", Optional Str, comment);
       ("merchant_id", Optional Str, merchant_id);
       ("merchant_name", Optional Str, merchant_name)]
  | Invoice_info id order_id =>
      [("id", Optional Str, id); ("order_id", Optional Str, order_id)]
  | Invoice_set_webhook url => [("url", HttpUrl, url)]
  end.

(** Every argument of the call passes its annotation. *)
Definition validates (c : call) : bool :=
  forallb
    (fun p => match validate (snd (fst p)) (snd p) with
              | Some _ => true
              | None => false
              end)
    (parameters c).

(** The endpoint table of the remote API: HTTP method and path. *)
Definition endpoint (c : call) : string * string :=
  match c with
  | Test_ping => ("GET", "/test/ping")
  | Wallet_list => ("GET", "/wallet/list")
  | Withdraw_create _ _ _ _ _ _ _ _ => ("POST", "/withdraw/create")
  | Withdraw_info _ => ("POST", "/withdraw/info")
  | Transfer_create _ _ _ _ _ => ("POST", "/transfer/create")
  | Transfer_info _ => ("POST", "/transfer/info")
  | Transactions_list _ _ _ _ _ _ => ("POST", "/transactions/list")
  | Invoice_create _ _ _ _ _ _ _ _ _ _ _ _ => ("POST", "/invoice/create")
  | Invoice_info _ _ => ("POST", "/invoice/info")
  | Invoice_set_webhook _ => ("POST", "/invoice/set-webhook")
  | Invoice_generate_secret_key => ("GET", "/invoice/generate-secret-key")
  end.

End Client.

(** ** What the specification asks of the dispatcher *)

(** Step 1 of the dispatch routine, as the specification words it: a pure
    function that removes every key whose value is absent. *)
Definition stripAbsent (params : dict) : dict :=
  filter (fun kv => negb (is_None (snd kv))) params.

(** The keys of a list are pairwise different. *)
Fixpoint distinct (ks : list string) : bool :=
  match ks with
  | [] => true
  | k :: ks' => negb (existsb (String.eqb k) ks') && distinct ks'
  end.

(** The requests issued between an earlier world and a later one. *)
Definition issued (w w' : world) : list request :=
  skipn (List.length (sent w)) (sent w').

(** The decoded body carries the failure marker of the remote service. *)
Definition signals_failure (body : json) : bool :=
  match body with
  | JObj kvs =>
      existsb
        (fun kv => String.eqb (fst kv) "status"
                   && match snd kv with
                      | JStr s => String.eqb s "error"
                      | _ => false
                      end)
        kvs
  | _ => false
  end.

Section Reference.

Context {pydantic : Pydantic} {builtins : Builtins}.
Variable net : network.

(** What [@validate_arguments] does with the arguments of a call: the
    coerced values by parameter name, or nothing when one is rejected. *)
Fixpoint bind_arguments (ps : list (string * annotation * pyobj))
  : option dict :=
  match ps with
  | [] => Some []
  | (name, a, x) :: ps' =>
      match validate a x with
      | None => None
      | Some v => option_map (cons (name, v)) (bind_arguments ps')
      end
  end.

(** Steps 2 and 3: the URL and the authorization header. *)
Definition the_request (self : Lava) (method path : string) (body : dict)
  : request :=
  {| req_method := method;
     req_url := (path_prefix ++ path)%string;
     req_headers := [("Authorization", api_key self)];
     req_data := body |}.

(** Steps 5 and 7: a failure of the transport or of the decoder is surfaced,
    a decoded body is returned as it is. *)
Definition outcome (r : transport_exn + ClientResponse) : result pyobj :=
  match r with
  | inl e => Raise (TransportError e)
  | inr (Response (inl e)) => Raise (TransportError e)
  | inr (Response (inr j)) => Ok (to_py j)
  end.

(** Step 4: one request goes out and its outcome comes back. *)
Definition exchange (self : Lava) (method path : string) (body : dict)
  : M pyobj :=
  fun w =>
    let r := the_request self method path body in
    (outcome (net r),
     {| default_data := default_data w; sent := sent w ++ [r] |}).

End Reference.

(** The worlds a program can be in: the one the module is loaded into, and
    those that endpoint calls lead to, whatever the network answers. *)
Inductive reachable {pydantic : Pydantic} {builtins : Builtins}
  : world -> Prop :=
| reachable_initial : reachable initial_world
| reachable_invoke (net : network) (self : Lava) (c : call) (w : world) :
    reachable w -> reachable (snd (invoke net self c w)).

(** The three calls the specification lists as [GET]. *)
Definition is_GET (c : call) : bool :=
  match c with
  | Test_ping | Wallet_list | Invoice_generate_secret_key => true
  | _ => false
  end.

(** The parameters the specification calls URL-typed and numeric. *)
Definition url_parameters : list string :=
  ["hook_url"; "success_url"; "fail_url"; "url"].

Definition numeric_parameters : list string := ["amount"; "sum"].

Definition url_typed (a : annotation) : bool :=
  match a with
  | HttpUrl | Optional HttpUrl => true
  | _ => false
  end.

Definition float_typed (a : annotation) : bool :=
  match a with
  | Float => true
  | _ => false
  end.

(** ** Values for the examples *)

(** Validators that accept a value of the annotated type as it is and
    nothing else; a URL is a string that starts with a scheme and [//]. *)
Definition strict_pydantic : Pydantic := {|
  str_validator x := match x with PyStr s => Some s | _ => None end;
  int_validator x := match x with PyInt z => Some z | _ => None end;
  float_validator x := match x with PyFloat f => Some f | _ => None end;
  HttpUrl_validate x :=
    match x with
    | PyStr s =>
        if (prefix "http://" s || prefix "https://" s)%bool then Some s
        else None
    | _ => None
    end
|}.

Definition plain_builtins : Builtins := {|
  format x := match x with PyStr s => s | _ => "" end
|}.

(** A simulated transport that gives the same answer to every request. *)
Definition always (answer : transport_exn + ClientResponse) : network :=
  fun _ => answer.

Definition decoded (body : json) : transport_exn + ClientResponse :=
  inr (Response (inr body)).

Definition undecodable (e : transport_exn)
  : transport_exn + ClientResponse :=
  inr (Response (inl e)).

Definition error_body : json :=
  JObj [("status", JStr "error"); ("code", JStr "E1");
        ("message", JStr "bad account")].

Definition wallets_body : json :=
  JArr [JObj [("account", JStr "R10000001"); ("currency", JStr "RUB");
              ("balance", JStr "1500.00")]].

Definition client : Lava := {| api_key := "your_token_here" |}.

(** ** Sequences of calls *)

(** Endpoint calls made one after the other, each against the network as it
    is at that moment. *)
Fixpoint run_calls {pydantic : Pydantic} {builtins : Builtins}
    (cs : list (network * Lava * call)) (w : world) : world :=
  match cs with
  | [] => w
  | (net, self, c) :: cs' => run_calls cs' (snd (invoke net self c w))
  end.

(** ** The example program (src/example.py) *)

(** What can leave [main]: an exception of the client, or one of the two
    that [all_wallets[0]] adds. *)
Inductive uncaught : Type :=
| Lib (e : exn)
| IndexError
| KeyError_0.

Section Example.

Context {pydantic : Pydantic} {builtins : Builtins}.
Variable net : network.

(** The program runs in the world of the client and writes lines to the
    standard output. *)
Definition P (A : Type) : Type :=
  world * list string -> (uncaught + A) * (world * list string).

Definition bindP {A B} (m : P A) (k : A -> P B) : P B :=
  fun s =>
    match m s with
    | (inr a, s') => k a s'
    | (inl e, s') => (inl e, s')
    end.

Notation "x <~ m ;; k" := (bindP m (fun x => k))
  (at level 61, m at next level, right associativity).
Notation "m ;;~ k" := (bindP m (fun _ => k))
  (at level 61, right associativity).

(** [await] of a coroutine of the client. *)
Definition await {A} (m : M A) : P A :=
  fun s =>
    match m (fst s) with
    | (Ok a, w') => (inr a, (w', snd s))
    | (Raise e, w') => (inl (Lib e), (w', snd s))
    end.

Definition liftP {A} (r : result A) : P A :=
  fun s =>
    match r with
    | Ok a => (inr a, s)
    | Raise e => (inl (Lib e), s)
    end.

(** [print(x)] writes [str(x)], which for the objects here is what an empty
    format specification gives. *)
Definition print (x : pyobj) : P unit :=
  fun s => (inr tt, (fst s, snd s ++ [format x])).

(** [print(e)] for a [LavaError] built from one message. *)
Definition print_exception (msg : string) : P unit :=
  fun s => (inr tt, (fst s, snd s ++ [msg])).

(** [x[0]].  A list or a string gives its first element or [IndexError];
    a dictionary decoded from JSON has only strings as keys, so the key [0]
    is missing; the other objects cannot be subscripted.  A string is read
    as its sequence of characters. *)
Definition getitem_0 (x : pyobj) : uncaught + pyobj :=
  match x with
  | PyList (v :: _) => inr v
  | PyList [] => inl IndexError
  | PyStr (String ch _) => inr (PyStr (String ch EmptyString))
  | PyStr EmptyString => inl IndexError
  | PyDict _ => inl KeyError_0
  | _ => inl (Lib TypeError)
  end.

(** [try: body / except LavaError as e: handler(e)] *)
Definition try_except_LavaError (body : P unit) (handler : string -> P unit)
  : P unit :=
  fun s =>
    match body s with
    | (inl (Lib (LavaError msg)), s') => handler msg s'
    | r => r
    end.

(** The body of the [try] statement of [main]. *)
Definition main_try (client : Lava) : P unit :=
  ping_result <~ await (test_ping net client) ;;
  print ping_result ;;~
  all_wallets <~ await (wallet_list net client) ;;
  print all_wallets ;;~
  wallet <~ (fun s => (getitem_0 all_wallets, s)) ;;
  account <~ liftP (get wallet "account") ;;
  all_transfers <~ await (transactions_list net client (PyStr "transfer")
                            account PyNone PyNone PyNone PyNone) ;;
  print all_transfers.

Definition main (token : string) : P unit :=
  client <~ await (__init__ token) ;;
  try_except_LavaError (main_try client) (fun e => print_exception e).

End Example.

(** A step of the program that does not end in a [LavaError]. *)
Definition quiet {A} (m : world * list string -> (uncaught + A) * (world * list string))
  : Prop :=
  forall s msg, fst (m s) <> inl (Lib (LavaError msg)).

(** A simulated service for the example: it answers by path. *)
Definition sandbox : network :=
  fun r =>
    if String.eqb (req_url r) "https://api.lava.ru/test/ping" then
      decoded (JObj [("status", JBool true)])
    else if String.eqb (req_url r) "https://api.lava.ru/wallet/list" then
      decoded wallets_body
    else decoded (JArr []).

(** The same service for an account without wallets. *)
Definition sandbox_no_wallets : network :=
  fun r =>
    if String.eqb (req_url r) "https://api.lava.ru/test/ping" then
      decoded (JObj [("status", JBool true)])
    else decoded (JArr []).

(** * Properties *)

(** ** Dictionaries *)

Lemma distinct_NoDup (ks : list string) : distinct ks = true -> NoDup ks.
Proof.
  induction ks as [|k ks IH]; simpl; intros H; constructor;
    apply andb_prop in H; destruct H as [Hk Hks]; auto.
  intros Hin. apply negb_true_iff in Hk.
  assert (existsb (String.eqb k) ks = true) as E; [|congruence].
  apply existsb_exists. exists k. split; auto. apply String.eqb_refl.
Qed.

Lemma dict_get_app_r (pre d : dict) (k : string) :
  ~ In k (keys pre) -> dict_get (pre ++ d) k = dict_get d k.
Proof.
  induction pre as [|[k' v'] pre IH]; simpl; intros H; auto.
  destruct (String.eqb_spec k' k); [tauto|]. apply IH. tauto.
Qed.

Lemma dict_pop_app_r (pre d : dict) (k : string) :
  ~ In k (keys pre) -> dict_pop k (pre ++ d) = pre ++ dict_pop k d.
Proof.
  induction pre as [|[k' v'] pre IH]; simpl; intros H; auto.
  destruct (String.eqb_spec k' k); [tauto|]. f_equal. apply IH. tauto.
Qed.

Lemma dict_set_fresh (d : dict) (k : string) (v : pyobj) :
  ~ In k (keys d) -> dict_set d k v = d ++ [(k, v)].
Proof.
  induction d as [|[k' v'] d IH]; simpl; intros H; auto.
  destruct (String.eqb_spec k' k); [tauto|]. f_equal. apply IH. tauto.
Qed.

Lemma dict_display_from (items acc : dict) :
  NoDup (keys (acc ++ items)) ->
  fold_left (fun d kv => dict_set d (fst kv) (snd kv)) items acc
  = acc ++ items.
Proof.
  revert acc. induction items as [|[k v] items IH]; intros acc H; simpl.
  - now rewrite app_nil_r.
  - unfold keys in H. rewrite map_app in H. simpl in H.
    rewrite dict_set_fresh.
    + rewrite IH; rewrite <- app_assoc; auto.
      unfold keys. rewrite map_app. simpl. exact H.
    + apply NoDup_remove_2 in H. intros Hin. apply H.
      apply in_or_app. now left.
Qed.

(** A display whose keys are pairwise different is the dictionary of its
    items, in the order written. *)
Lemma dict_display_distinct (items : dict) :
  distinct (keys items) = true -> dict_display items = items.
Proof.
  intros H. unfold dict_display.
  now rewrite dict_display_from by (apply distinct_NoDup; exact H).
Qed.

Lemma stripAbsent_app (d1 d2 : dict) :
  stripAbsent (d1 ++ d2) = stripAbsent d1 ++ stripAbsent d2.
Proof. apply filter_app. Qed.

(** The loop of [_request] over a snapshot of the keys, run on a dictionary
    that has already-visited entries [pre] in front of the entries [d] still
    to visit. *)
Lemma pop_None_app (d pre : dict) :
  NoDup (keys d) ->
  (forall k, In k (keys d) -> ~ In k (keys pre)) ->
  pop_None (keys d) (pre ++ d) = Ok (pre ++ stripAbsent d).
Proof.
  revert pre. induction d as [|[k v] d IH]; intros pre Hnd Hpre; simpl.
  - reflexivity.
  - inversion Hnd as [|? ? Hk Hd]; subst.
    rewrite dict_get_app_r by (apply Hpre; now left).
    simpl. rewrite String.eqb_refl.
    destruct (is_None v) eqn:Ev; simpl.
    + rewrite dict_pop_app_r by (apply Hpre; now left).
      simpl. rewrite String.eqb_refl.
      apply IH; auto. intros k' Hk'. apply Hpre. now right.
    + change (pre ++ (k, v) :: d) with (pre ++ [(k, v)] ++ d).
      rewrite app_assoc. rewrite IH; auto.
      * now rewrite <- app_assoc.
      * intros k' Hk' Hin. unfold keys in Hin. rewrite map_app in Hin.
        apply in_app_or in Hin. destruct Hin as [Hin|Hin].
        -- apply (Hpre k'); auto. now right.
        -- simpl in Hin. destruct Hin as [<-|[]]. contradiction.
Qed.

(** The in-place loop computes the pure function of the specification. *)
Lemma pop_None_stripAbsent (d : dict) :
  NoDup (keys d) -> pop_None (keys d) d = Ok (stripAbsent d).
Proof.
  intros H. apply (pop_None_app d [] H). intros k _ [].
Qed.

Lemma stripAbsent_get_None (d : dict) (k : string) :
  dict_get (stripAbsent d) k <> Some PyNone.
Proof.
  induction d as [|[k' v] d IH]; simpl; [discriminate|].
  destruct (is_None v) eqn:Ev; simpl; auto.
  destruct (String.eqb k' k); auto.
  intros E. injection E as ->. discriminate.
Qed.

Lemma dict_get_not_in (d : dict) (k : string) :
  ~ In k (keys d) -> dict_get d k = None.
Proof.
  induction d as [|[k' v] d IH]; simpl; intros H; auto.
  destruct (String.eqb_spec k' k); [tauto|]. apply IH. tauto.
Qed.

Lemma keys_stripAbsent_incl (d : dict) (k : string) :
  In k (keys (stripAbsent d)) -> In k (keys d).
Proof.
  unfold keys, stripAbsent. intros H. apply in_map_iff in H.
  destruct H as [kv [<- H]]. apply filter_In in H.
  apply in_map. tauto.
Qed.

(** A key bound to [None] is gone after stripping. *)
Lemma stripAbsent_absent (d : dict) (k : string) :
  NoDup (keys d) -> In (k, PyNone) d -> dict_get (stripAbsent d) k = None.
Proof.
  induction d as [|[k' v] d IH]; simpl; intros Hnd Hin; [tauto|].
  inversion Hnd as [|? ? Hk Hd]; subst.
  destruct Hin as [E|Hin].
  - injection E as -> ->. simpl. apply dict_get_not_in.
    intros H. apply Hk. now apply keys_stripAbsent_incl.
  - destruct (is_None v); simpl; auto.
    destruct (String.eqb_spec k' k) as [->|]; auto.
    exfalso. apply Hk. change k with (fst (k, PyNone)).
    now apply in_map.
Qed.

(** ** The dispatcher *)

Section Dispatcher.

Context {pydantic : Pydantic} {builtins : Builtins}.
Variable net : network.

(** No decoded body is the object [typing.Dict]. *)
Lemma is_Dict_to_py (j : json) : is_Dict (to_py j) = false.
Proof. destruct j; reflexivity. Qed.

Lemma bind_arg {A} (a : annotation) (x v : pyobj) (k : pyobj -> M A)
    (w : world) :
  validate a x = Some v -> bind (arg a x) k w = k v w.
Proof. intros E. unfold bind, arg. now rewrite E. Qed.

Lemma bind_arg_None {A} (a : annotation) (x : pyobj) (k : pyobj -> M A)
    (w : world) :
  validate a x = None -> bind (arg a x) k w = (Raise ValidationError, w).
Proof. intros E. unfold bind, arg. now rewrite E. Qed.

(** After the stripping loop, [_request] is one exchange with the network. *)
Lemma _request_tail (self : Lava) (method path : string) (d : dict)
    (w : world) :
  bind (session_request net method (path_prefix ++ path)%string
          [("Authorization", api_key self)] d)
       (fun responce =>
          result <- responce_json responce ;;
          if is_Dict result then
            status <- lift (get result "status") ;;
            if eq_str status "error" then
              code <- lift (getitem result "code") ;;
              messge <- lift (getitem result "messge") ;;
              raise (LavaError (format code ++ ": " ++ format messge)%string)
            else ret result
          else ret result) w
  = exchange net self method path d w.
Proof.
  unfold bind, session_request, exchange, the_request, outcome.
  destruct (net _) as [e|[[e|j]]]; simpl; auto.
  now rewrite is_Dict_to_py.
Qed.

Lemma _request_Passed (self : Lava) (method path : string) (d : dict)
    (w : world) :
  distinct (keys d) = true ->
  _request net self method path (Passed d) w
  = exchange net self method path (stripAbsent d) w.
Proof.
  intros Hd. unfold _request.
  unfold bind at 1, load. unfold bind at 1, lift.
  rewrite pop_None_stripAbsent by (now apply distinct_NoDup).
  unfold bind at 1, store. apply _request_tail.
Qed.

Lemma _request_Default (self : Lava) (method path : string) (w : world) :
  default_data w = [] ->
  _request net self method path Default w
  = exchange net self method path [] w.
Proof.
  destruct w as [dd s]. simpl. intros ->. unfold _request.
  unfold bind at 1, load. unfold bind at 1, lift. simpl pop_None.
  unfold bind at 1, store. simpl. apply _request_tail.
Qed.

End Dispatcher.

(** ** The endpoint methods *)

Ltac split_arguments H :=
  cbn [bind_arguments parameters] in H;
  repeat match type of H with
         | context [validate ?a ?x] =>
             destruct (validate a x) eqn:?; cbn [option_map] in H
         end.

Ltac run_arguments :=
  cbv beta iota delta [invoke test_ping wallet_list withdraw_create withdraw_info
                    transfer_create transfer_info transactions_list
                    invoice_create invoice_info invoice_set_webhook
                    invoice_generate_secret_key];
  repeat (erewrite bind_arg by eassumption; cbv beta);
  cbv beta zeta.

Section Endpoints.

Context {pydantic : Pydantic} {builtins : Builtins}.
Variable net : network.

(** A call with a rejected argument raises and leaves the world as it was. *)
Lemma invoke_invalid (self : Lava) (c : call) (w : world) :
  bind_arguments (parameters c) = None ->
  invoke net self c w = (Raise ValidationError, w).
Proof.
  intros H. destruct c; split_arguments H; try discriminate H;
    run_arguments; erewrite bind_arg_None by eassumption; reflexivity.
Qed.

(** A call whose arguments pass is one exchange: the method and path of the
    endpoint, and the coerced arguments without the unset ones. *)
Lemma invoke_valid (self : Lava) (c : call) (d : dict) (w : world) :
  bind_arguments (parameters c) = Some d ->
  default_data w = [] ->
  invoke net self c w
  = exchange net self (fst (endpoint c)) (snd (endpoint c)) (stripAbsent d) w.
Proof.
  intros H Hw. destruct c; split_arguments H; try discriminate H;
    injection H as <-; run_arguments; cbn [endpoint fst snd];
    try (now apply _request_Default);
    rewrite dict_display_distinct by reflexivity;
    apply _request_Passed; reflexivity.
Qed.

Lemma bind_arguments_keys (ps : list (string * annotation * pyobj))
    (d : dict) :
  bind_arguments ps = Some d -> keys d = map (fun p => fst (fst p)) ps.
Proof.
  revert d. induction ps as [|[[name a] x] ps IH]; intros d H; simpl in H.
  - now injection H as <-.
  - destruct (validate a x); [|discriminate].
    destruct (bind_arguments ps) as [d'|]; [|discriminate].
    injection H as <-. simpl. f_equal. now apply IH.
Qed.

(** An optional parameter left at [None] reaches the body of the method as
    [None] under its own name. *)
Lemma bind_arguments_unset (ps : list (string * annotation * pyobj))
    (d : dict) (name : string) (a : annotation) :
  bind_arguments ps = Some d -> In (name, Optional a, PyNone) ps ->
  In (name, PyNone) d.
Proof.
  revert d. induction ps as [|[[name' a'] x] ps IH]; intros d H Hin;
    simpl in H; [destruct Hin|].
  destruct (validate a' x) as [v|] eqn:Ev; [|discriminate].
  destruct (bind_arguments ps) as [d'|]; [|discriminate].
  injection H as <-. destruct Hin as [E|Hin].
  - injection E as -> -> ->. simpl in Ev. injection Ev as <-. now left.
  - right. now apply IH.
Qed.

Lemma bind_arguments_rejected (ps : list (string * annotation * pyobj))
    (name : string) (a : annotation) (x : pyobj) :
  In (name, a, x) ps -> validate a x = None -> bind_arguments ps = None.
Proof.
  induction ps as [|[[name' a'] x'] ps IH]; intros Hin Hv; simpl;
    [destruct Hin|].
  destruct Hin as [E|Hin].
  - injection E as -> -> ->. now rewrite Hv.
  - rewrite (IH Hin Hv). now destruct (validate a' x').
Qed.

Lemma validates_bind_arguments (c : call) :
  validates c = true -> exists d, bind_arguments (parameters c) = Some d.
Proof.
  unfold validates. induction (parameters c) as [|[[name a] x] ps IH];
    simpl; intros H.
  - now exists [].
  - destruct (validate a x) as [v|]; [|discriminate].
    destruct (IH H) as [d ->]. now exists ((name, v) :: d).
Qed.

(** The names in a signature are pairwise different. *)
Lemma parameters_distinct (c : call) :
  distinct (map (fun p => fst (fst p)) (parameters c)) = true.
Proof. destruct c; reflexivity. Qed.

Lemma issued_exchange (self : Lava) (method path : string) (body : dict)
    (w : world) :
  issued w (snd (exchange net self method path body w))
  = [the_request self method path body].
Proof.
  unfold issued, exchange. simpl.
  induction (sent w) as [|r l IH]; simpl; auto.
Qed.

Lemma issued_same (w : world) : issued w w = [].
Proof. unfold issued. induction (sent w); simpl; auto. Qed.

Lemma outcome_not_LavaError (r : transport_exn + ClientResponse)
    (msg : string) :
  outcome r <> Raise (LavaError msg).
Proof. destruct r as [e|[[e|j]]]; discriminate. Qed.

Lemma outcome_not_ValidationError (r : transport_exn + ClientResponse) :
  outcome r <> Raise ValidationError.
Proof. destruct r as [e|[[e|j]]]; discriminate. Qed.

Lemma pop_None_raises (ks : list string) (d : dict) (e : exn) :
  pop_None ks d = Raise e -> exists key, e = KeyError key.
Proof.
  revert d. induction ks as [|key ks IH]; intros d; simpl; [discriminate|].
  destruct (dict_get d key) as [v|].
  - destruct (is_None v); apply IH.
  - intros H. injection H as <-. now exists key.
Qed.

(** The [raise LavaError] of [_request] is never reached. *)
Lemma _request_not_LavaError (self : Lava) (method path : string)
    (data : data_arg) (w : world) (msg : string) :
  fst (_request net self method path data w) <> Raise (LavaError msg).
Proof.
  unfold _request. unfold bind at 1.
  destruct data as [|d0]; cbn [load]; unfold bind at 1, lift.
  all: match goal with
       | |- context [pop_None ?ks ?d] =>
           destruct (pop_None ks d) as [d'|e] eqn:E
       end.
  all: try (unfold bind at 1, store; rewrite _request_tail;
            apply outcome_not_LavaError).
  all: destruct (pop_None_raises _ _ _ E) as [key ->]; discriminate.
Qed.

Lemma invoke_not_LavaError (self : Lava) (c : call) (w : world)
    (msg : string) :
  fst (invoke net self c w) <> Raise (LavaError msg).
Proof.
  destruct c; run_arguments;
    repeat match goal with
           | |- context [arg ?a ?x] =>
               destruct (validate a x) eqn:?;
               [ erewrite bind_arg by eassumption; cbv beta
               | erewrite bind_arg_None by eassumption; discriminate ]
           end;
    apply _request_not_LavaError.
Qed.

(** A call leaves the shared default dictionary empty. *)
Lemma invoke_default_data (self : Lava) (c : call) (w : world) :
  default_data w = [] -> default_data (snd (invoke net self c w)) = [].
Proof.
  intros Hw. destruct (bind_arguments (parameters c)) as [d|] eqn:E.
  - now rewrite (invoke_valid self c d w E Hw).
  - now rewrite (invoke_invalid self c w E).
Qed.

End Endpoints.

(** In every reachable world the default [data] of [_request] is the empty
    dictionary it was created as. *)
Lemma reachable_default_data {pydantic : Pydantic} {builtins : Builtins}
    (w : world) :
  reachable w -> default_data w = [].
Proof.
  induction 1 as [|net self c w _ IH]; [reflexivity|].
  now apply invoke_default_data.
Qed.

(** ** The claims of the specification *)

Section Claims.

Context {pydantic : Pydantic} {builtins : Builtins}.

Lemma invoke_reachable (net : network) (self : Lava) (c : call) (w : world) :
  reachable w -> validates c = true ->
  exists d,
    bind_arguments (parameters c) = Some d
    /\ invoke net self c w
       = exchange net self (fst (endpoint c)) (snd (endpoint c))
           (stripAbsent d) w.
Proof.
  intros Hw Hv. destruct (validates_bind_arguments c Hv) as [d Hd].
  exists d. split; auto.
  apply invoke_valid; auto. now apply reachable_default_data.
Qed.

Lemma issued_invoke (net : network) (self : Lava) (c : call) (w : world)
    (r : request) :
  reachable w -> In r (issued w (snd (invoke net self c w))) ->
  exists d,
    bind_arguments (parameters c) = Some d
    /\ r = the_request self (fst (endpoint c)) (snd (endpoint c))
             (stripAbsent d).
Proof.
  intros Hw Hr. destruct (bind_arguments (parameters c)) as [d|] eqn:E.
  - exists d. split; auto.
    rewrite (invoke_valid net self c d w E (reachable_default_data w Hw)),
      issued_exchange in Hr.
    destruct Hr as [<-|[]]. reflexivity.
  - rewrite (invoke_invalid net self c w E) in Hr. simpl in Hr.
    rewrite issued_same in Hr. destruct Hr.
Qed.

Lemma typed_parameters (names : list string) (typed : annotation -> bool)
    (c : call) (name : string) (a : annotation) (x : pyobj) :
  forallb
    (fun p => implb (existsb (String.eqb (fst (fst p))) names)
                    (typed (snd (fst p))))
    (parameters c) = true ->
  In (name, a, x) (parameters c) -> In name names -> typed a = true.
Proof.
  intros H Hin Hn. rewrite forallb_forall in H. specialize (H _ Hin).
  simpl in H.
  assert (existsb (String.eqb name) names = true) as E.
  { apply existsb_exists. exists name. split; auto. apply String.eqb_refl. }
  now rewrite E in H.
Qed.

Lemma url_parameters_typed (c : call) (name : string) (a : annotation)
    (x : pyobj) :
  In (name, a, x) (parameters c) -> In name url_parameters ->
  url_typed a = true.
Proof. apply typed_parameters. destruct c; reflexivity. Qed.

Lemma numeric_parameters_typed (c : call) (name : string) (a : annotation)
    (x : pyobj) :
  In (name, a, x) (parameters c) -> In name numeric_parameters ->
  float_typed a = true.
Proof. apply typed_parameters. destruct c; reflexivity. Qed.

(** C1, as the code behaves: with a transport that answers every request
    with the body [{"status": "error", "code": "E1", "message": "bad
    account"}], every endpoint method whose arguments pass validation
    returns that body as its result; no [LavaError] is raised. *)
Theorem error_body_is_returned (self : Lava) (c : call) (w : world) :
  reachable w -> validates c = true ->
  fst (invoke (always (decoded error_body)) self c w)
  = Ok (to_py error_body).
Proof.
  intros Hw Hv.
  destruct (invoke_reachable (always (decoded error_body)) self c w Hw Hv)
    as [d [_ ->]].
  reflexivity.
Qed.

(** C2: an optional parameter left unset is not a key of the body of any
    request the call issues, and no key of that body is bound to [None]. *)
Theorem unset_optional_not_transmitted (net : network) (self : Lava)
    (c : call) (w : world) (name : string) (a : annotation) (r : request) :
  reachable w ->
  In (name, Optional a, PyNone) (parameters c) ->
  In r (issued w (snd (invoke net self c w))) ->
  dict_get (req_data r) name = None
  /\ forall k, dict_get (req_data r) k <> Some PyNone.
Proof.
  intros Hw Hp Hr. destruct (issued_invoke net self c w r Hw Hr) as [d [Hd ->]].
  simpl. split.
  - apply stripAbsent_absent.
    + apply distinct_NoDup. rewrite (bind_arguments_keys _ _ Hd).
      apply parameters_distinct.
    + eapply bind_arguments_unset; eauto.
  - intros k. apply stripAbsent_get_None.
Qed.

(** C3: when the body of the response does not decode as JSON, the call
    raises the error of the decoder, and that error is not a [LavaError]. *)
Theorem undecodable_body_raises_transport_error (net : network)
    (self : Lava) (c : call) (w : world) (e : transport_exn) :
  reachable w -> validates c = true ->
  (forall r, net r = undecodable e) ->
  fst (invoke net self c w) = Raise (TransportError e)
  /\ forall msg, fst (invoke net self c w) <> Raise (LavaError msg).
Proof.
  intros Hw Hv Hnet.
  destruct (invoke_reachable net self c w Hw Hv) as [d [_ ->]].
  unfold exchange. simpl. rewrite Hnet. split; [reflexivity|discriminate].
Qed.

(** C4: a value that [HttpUrl] rejects, passed to one of the parameters
    [hook_url], [success_url], [fail_url] and [url], makes the call raise
    [ValidationError] with the world untouched: no request is issued. *)
Theorem malformed_url_raises_before_any_request (net : network)
    (self : Lava) (c : call) (w : world) (name : string) (a : annotation)
    (x : pyobj) :
  In (name, a, x) (parameters c) -> In name url_parameters ->
  x <> PyNone -> HttpUrl_validate x = None ->
  invoke net self c w = (Raise ValidationError, w)
  /\ issued w (snd (invoke net self c w)) = [].
Proof.
  intros Hp Hn Hx Hu.
  assert (validate a x = None) as Hv.
  { pose proof (url_parameters_typed c name a x Hp Hn) as Ha.
    destruct a as [| | | |[]]; try discriminate Ha; simpl; rewrite Hu;
      [reflexivity|].
    destruct x; [now destruct Hx|reflexivity..]. }
  rewrite (invoke_invalid net self c w
             (bind_arguments_rejected _ name a x Hp Hv)).
  split; [reflexivity|apply issued_same].
Qed.

(** C5: a value that the [float] validator rejects, passed to [amount] or
    [sum], makes the call raise [ValidationError] with the world untouched:
    no request is issued. *)
Theorem non_numeric_raises_before_any_request (net : network) (self : Lava)
    (c : call) (w : world) (name : string) (a : annotation) (x : pyobj) :
  In (name, a, x) (parameters c) -> In name numeric_parameters ->
  float_validator x = None ->
  invoke net self c w = (Raise ValidationError, w)
  /\ issued w (snd (invoke net self c w)) = [].
Proof.
  intros Hp Hn Hf.
  assert (validate a x = None) as Hv.
  { pose proof (numeric_parameters_typed c name a x Hp Hn) as Ha.
    destruct a; try discriminate Ha. simpl. now rewrite Hf. }
  rewrite (invoke_invalid net self c w
             (bind_arguments_rejected _ name a x Hp Hv)).
  split; [reflexivity|apply issued_same].
Qed.

(** C6: when the response decodes to a body that does not signal a business
    failure, the call returns exactly the decoded body. *)
Theorem decoded_body_returned_unchanged (net : network) (self : Lava)
    (c : call) (w : world) (body : json) :
  reachable w -> validates c = true ->
  (forall r, net r = decoded body) ->
  signals_failure body = false ->
  fst (invoke net self c w) = Ok (to_py body).
Proof.
  intros Hw Hv Hnet _.
  destruct (invoke_reachable net self c w Hw Hv) as [d [_ ->]].
  unfold exchange. simpl. now rewrite Hnet.
Qed.

(** C7: a call whose arguments pass validation issues exactly one request,
    with the method and path of its endpoint; the three argument-less
    endpoints go out as [GET] with an empty body, the others as [POST] with
    the parameter mapping (unset entries removed) as the body. *)
Theorem endpoint_method_path_and_body (net : network) (self : Lava)
    (c : call) (w : world) (d : dict) :
  reachable w -> bind_arguments (parameters c) = Some d ->
  exists r,
    issued w (snd (invoke net self c w)) = [r]
    /\ req_method r = fst (endpoint c)
    /\ req_url r = (path_prefix ++ snd (endpoint c))%string
    /\ if is_GET c then req_method r = "GET" /\ req_data r = []
       else req_method r = "POST" /\ req_data r = stripAbsent d.
Proof.
  intros Hw Hd.
  rewrite (invoke_valid net self c d w Hd (reachable_default_data w Hw)).
  rewrite issued_exchange. eexists. split; [reflexivity|].
  simpl. repeat split.
  destruct c; simpl; split; try reflexivity;
    simpl in Hd; now injection Hd as <-.
Qed.

(** C8: the request of a dispatched call goes to the base URL followed by
    the path of the endpoint, and its only header is [Authorization] with
    the stored credential as its value. *)
Theorem url_and_authorization_header (net : network) (self : Lava)
    (c : call) (w : world) :
  reachable w -> validates c = true ->
  exists r,
    issued w (snd (invoke net self c w)) = [r]
    /\ req_url r = ("https://api.lava.ru" ++ snd (endpoint c))%string
    /\ req_headers r = [("Authorization", api_key self)].
Proof.
  intros Hw Hv. destruct (invoke_reachable net self c w Hw Hv) as [d [_ ->]].
  rewrite issued_exchange. eexists. split; [reflexivity|]. now split.
Qed.

(** C9: [invoice_info] checks [id] and [order_id] one by one and never
    together: whenever each of them passes [Optional[str]] on its own, the
    call raises no [ValidationError] and issues the request with whichever
    of the two are set. *)
Theorem invoice_info_any_combination (net : network) (self : Lava)
    (w : world) (id order_id id' order_id' : pyobj) :
  validate (Optional Str) id = Some id' ->
  validate (Optional Str) order_id = Some order_id' ->
  fst (invoice_info net self id order_id w) <> Raise ValidationError
  /\ issued w (snd (invoice_info net self id order_id w))
     = [the_request self "POST" "/invoice/info"
          (stripAbsent [("id", id'); ("order_id", order_id')])].
Proof.
  intros Hi Ho. unfold invoice_info.
  rewrite (bind_arg _ _ _ _ _ Hi), (bind_arg _ _ _ _ _ Ho). cbv zeta.
  rewrite dict_display_distinct by reflexivity.
  rewrite _request_Passed by reflexivity.
  rewrite issued_exchange. split; [|reflexivity].
  apply outcome_not_ValidationError.
Qed.

(** C10: constructing a client succeeds for every string, touches nothing,
    and stores the string; every request the client issues afterwards has
    that string as its [Authorization] header. *)
Theorem construction_stores_credential (key : string) (w : world) :
  exists self,
    __init__ key w = (Ok self, w)
    /\ api_key self = key
    /\ forall net c w' r,
         reachable w' -> In r (issued w' (snd (invoke net self c w'))) ->
         req_headers r = [("Authorization", key)].
Proof.
  exists {| api_key := key |}. repeat split.
  intros net c w' r Hw Hr.
  destruct (issued_invoke net _ c w' r Hw Hr) as [d [_ ->]]. reflexivity.
Qed.

End Claims.

(** ** The claims on examples *)

Lemma error_body_is_returned_example :
  fst (@invoke strict_pydantic plain_builtins (always (decoded error_body))
         client (Withdraw_info (PyStr "3e22b0c8")) initial_world)
  = Ok (PyDict [("status", PyStr "error"); ("code", PyStr "E1");
                ("message", PyStr "bad account")]).
Proof.
  apply (@error_body_is_returned strict_pydantic plain_builtins client
           (Withdraw_info (PyStr "3e22b0c8")) initial_world).
  - apply reachable_initial.
  - reflexivity.
Defined.

Lemma unset_optional_not_transmitted_example :
  let r := {| req_method := "POST";
              req_url := "https://api.lava.ru/invoice/info";
              req_headers := [("Authorization", "your_token_here")];
              req_data := [("id", PyStr "1ee31634")] |} in
  dict_get (req_data r) "order_id" = None
  /\ forall k, dict_get (req_data r) k <> Some PyNone.
Proof.
  intros r.
  apply (@unset_optional_not_transmitted strict_pydantic plain_builtins
           (always (decoded (JObj []))) client
           (Invoice_info (PyStr "1ee31634") PyNone) initial_world
           "order_id" Str r).
  - apply reachable_initial.
  - simpl. right. left. reflexivity.
  - vm_compute. left. reflexivity.
Defined.

Lemma undecodable_body_raises_transport_error_example :
  fst (@invoke strict_pydantic plain_builtins
         (always (undecodable ContentTypeError)) client Test_ping
         initial_world)
  = Raise (TransportError ContentTypeError)
  /\ forall msg,
       fst (@invoke strict_pydantic plain_builtins
              (always (undecodable ContentTypeError)) client Test_ping
              initial_world)
       <> Raise (LavaError msg).
Proof.
  apply (@undecodable_body_raises_transport_error strict_pydantic
           plain_builtins (always (undecodable ContentTypeError)) client
           Test_ping initial_world ContentTypeError).
  - apply reachable_initial.
  - reflexivity.
  - reflexivity.
Defined.

Lemma malformed_url_raises_before_any_request_example :
  let c := Invoice_set_webhook (PyStr "lava.ru/hook") in
  @invoke strict_pydantic plain_builtins (always (decoded (JObj []))) client
    c initial_world
  = (Raise ValidationError, initial_world)
  /\ issued initial_world
       (snd (@invoke strict_pydantic plain_builtins
               (always (decoded (JObj []))) client c initial_world))
     = [].
Proof.
  intros c.
  apply (@malformed_url_raises_before_any_request strict_pydantic
           plain_builtins (always (decoded (JObj []))) client c
           initial_world "url" HttpUrl (PyStr "lava.ru/hook")).
  - simpl. left. reflexivity.
  - simpl. tauto.
  - discriminate.
  - reflexivity.
Defined.

Lemma non_numeric_raises_before_any_request_example :
  let c := Transfer_create (PyStr "R10000001") (PyStr "R10000004")
             (PyStr "a lot") PyNone PyNone in
  @invoke strict_pydantic plain_builtins (always (decoded (JObj []))) client
    c initial_world
  = (Raise ValidationError, initial_world)
  /\ issued initial_world
       (snd (@invoke strict_pydantic plain_builtins
               (always (decoded (JObj []))) client c initial_world))
     = [].
Proof.
  intros c.
  apply (@non_numeric_raises_before_any_request strict_pydantic
           plain_builtins (always (decoded (JObj []))) client c
           initial_world "amount" Float (PyStr "a lot")).
  - simpl. tauto.
  - simpl. tauto.
  - reflexivity.
Defined.

Lemma decoded_body_returned_unchanged_example :
  fst (@invoke strict_pydantic plain_builtins (always (decoded wallets_body))
         client Wallet_list initial_world)
  = Ok (PyList [PyDict [("account", PyStr "R10000001");
                        ("currency", PyStr "RUB");
                        ("balance", PyStr "1500.00")]]).
Proof.
  apply (@decoded_body_returned_unchanged strict_pydantic plain_builtins
           (always (decoded wallets_body)) client Wallet_list initial_world
           wallets_body).
  - apply reachable_initial.
  - reflexivity.
  - reflexivity.
  - reflexivity.
Defined.

Lemma endpoint_method_path_and_body_example :
  let net := always (decoded (JObj [("status", JStr "success")])) in
  (exists r,
     issued initial_world
       (snd (@invoke strict_pydantic plain_builtins net client Test_ping
               initial_world)) = [r]
     /\ req_method r = "GET"
     /\ req_url r = "https://api.lava.ru/test/ping"
     /\ req_method r = "GET" /\ req_data r = [])
  /\ (exists r,
        issued initial_world
          (snd (@invoke strict_pydantic plain_builtins net client
                  (Invoice_info PyNone (PyStr "order_125")) initial_world))
        = [r]
        /\ req_method r = "POST"
        /\ req_url r = "https://api.lava.ru/invoice/info"
        /\ req_method r = "POST"
        /\ req_data r = [("order_id", PyStr "order_125")]).
Proof.
  intros net. split.
  - apply (@endpoint_method_path_and_body strict_pydantic plain_builtins net
             client Test_ping initial_world []).
    + apply reachable_initial.
    + reflexivity.
  - apply (@endpoint_method_path_and_body strict_pydantic plain_builtins net
             client (Invoice_info PyNone (PyStr "order_125")) initial_world
             [("id", PyNone); ("order_id", PyStr "order_125")]).
    + apply reachable_initial.
    + reflexivity.
Defined.

Lemma url_and_authorization_header_example :
  exists r,
    issued initial_world
      (snd (@invoke strict_pydantic plain_builtins
              (always (inl ClientConnectorError)) client
              (Transfer_info (PyStr "c3d3702b")) initial_world)) = [r]
    /\ req_url r = "https://api.lava.ru/transfer/info"
    /\ req_headers r = [("Authorization", "your_token_here")].
Proof.
  apply (@url_and_authorization_header strict_pydantic plain_builtins
           (always (inl ClientConnectorError)) client
           (Transfer_info (PyStr "c3d3702b")) initial_world).
  - apply reachable_initial.
  - reflexivity.
Defined.

Lemma invoice_info_any_combination_example :
  let net := always (decoded (JObj [("status", JStr "success")])) in
  (fst (@invoice_info strict_pydantic plain_builtins net client PyNone PyNone
          initial_world) <> Raise ValidationError
   /\ issued initial_world
        (snd (@invoice_info strict_pydantic plain_builtins net client PyNone
                PyNone initial_world))
      = [the_request client "POST" "/invoice/info" []])
  /\ (fst (@invoice_info strict_pydantic plain_builtins net client
             (PyStr "1ee31634") (PyStr "order_125") initial_world)
      <> Raise ValidationError
      /\ issued initial_world
           (snd (@invoice_info strict_pydantic plain_builtins net client
                   (PyStr "1ee31634") (PyStr "order_125") initial_world))
         = [the_request client "POST" "/invoice/info"
              [("id", PyStr "1ee31634"); ("order_id", PyStr "order_125")]]).
Proof.
  intros net. split.
  - apply (@invoice_info_any_combination strict_pydantic plain_builtins net
             client initial_world PyNone PyNone PyNone PyNone);
      reflexivity.
  - apply (@invoice_info_any_combination strict_pydantic plain_builtins net
             client initial_world (PyStr "1ee31634") (PyStr "order_125")
             (PyStr "1ee31634") (PyStr "order_125"));
      reflexivity.
Defined.

Lemma construction_stores_credential_example :
  exists self,
    @__init__ "" initial_world = (Ok self, initial_world)
    /\ api_key self = ""
    /\ forall net c w' r,
         @reachable strict_pydantic plain_builtins w' ->
         In r (issued w'
                 (snd (@invoke strict_pydantic plain_builtins net self c w')))
         -> req_headers r = [("Authorization", "")].
Proof.
  apply (@construction_stores_credential strict_pydantic plain_builtins ""
           initial_world).
Defined.

(** * Further properties of the client *)

(** ** The stripping loop *)

Lemma dict_get_In (d : dict) (k : string) (v : pyobj) :
  NoDup (keys d) -> (dict_get d k = Some v <-> In (k, v) d).
Proof.
  induction d as [|[k' v'] d IH]; simpl; intros Hnd.
  - split; [discriminate|tauto].
  - inversion Hnd as [|? ? Hk Hd]; subst.
    destruct (String.eqb_spec k' k) as [->|Hne].
    + split.
      * intros E. injection E as ->. now left.
      * intros [E|Hin]; [now injection E as ->|].
        exfalso. apply Hk. change k with (fst (k, v)). now apply in_map.
    + rewrite (IH Hd). split; [tauto|].
      intros [E|Hin]; [|assumption]. injection E as -> _. now destruct Hne.
Qed.

Lemma NoDup_keys_stripAbsent (d : dict) :
  NoDup (keys d) -> NoDup (keys (stripAbsent d)).
Proof.
  induction d as [|[k v] d IH]; simpl; intros Hnd; [constructor|].
  inversion Hnd as [|? ? Hk Hd]; subst.
  destruct (is_None v); simpl; auto.
  constructor; auto. intros Hin. apply Hk.
  now apply keys_stripAbsent_incl.
Qed.

Lemma is_None_false (v : pyobj) : is_None v = false <-> v <> PyNone.
Proof. destruct v; simpl; split; congruence. Qed.

Lemma stripAbsent_get (d : dict) (k : string) (v : pyobj) :
  NoDup (keys d) ->
  (dict_get (stripAbsent d) k = Some v <-> In (k, v) d /\ v <> PyNone).
Proof.
  intros Hnd. rewrite (dict_get_In _ _ _ (NoDup_keys_stripAbsent d Hnd)).
  unfold stripAbsent. rewrite filter_In. simpl.
  rewrite negb_true_iff, is_None_false. tauto.
Qed.

(** X1: on a dictionary (its keys are pairwise different) the loop
    [for key in list(data): if data[key] is None: data.pop(key)] raises no
    [KeyError]; it ends with the entries whose value is not [None], in their
    order, and nothing else: a key is bound in the result exactly when it
    was bound to a value other than [None] before. *)
Theorem pop_None_keeps_the_set_entries (d : dict) :
  NoDup (keys d) ->
  exists d',
    pop_None (keys d) d = Ok d'
    /\ d' = filter (fun kv => negb (is_None (snd kv))) d
    /\ forall k v,
         dict_get d' k = Some v <-> dict_get d k = Some v /\ v <> PyNone.
Proof.
  intros Hnd. exists (stripAbsent d). split; [|split].
  - now apply pop_None_stripAbsent.
  - reflexivity.
  - intros k v. rewrite (stripAbsent_get d k v Hnd).
    now rewrite (dict_get_In d k v Hnd).
Qed.

Lemma pop_None_keeps_the_set_entries_example :
  exists d',
    pop_None ["id"; "order_id"; "comment"]
      [("id", PyNone); ("order_id", PyStr "order_125"); ("comment", PyNone)]
    = Ok d'
    /\ d' = [("order_id", PyStr "order_125")]
    /\ forall k v,
         dict_get d' k = Some v
         <-> dict_get
               [("id", PyNone); ("order_id", PyStr "order_125");
                ("comment", PyNone)] k = Some v
             /\ v <> PyNone.
Proof.
  apply (pop_None_keeps_the_set_entries
           [("id", PyNone); ("order_id", PyStr "order_125");
            ("comment", PyNone)]).
  apply distinct_NoDup. reflexivity.
Defined.

(** ** Calls *)

Section Calls.

Context {pydantic : Pydantic} {builtins : Builtins}.

(** A call whose arguments pass is its call of [_request], in any world. *)
Lemma invoke_request (net : network) (self : Lava) (c : call) (d : dict)
    (w : world) :
  bind_arguments (parameters c) = Some d ->
  invoke net self c w
  = _request net self (fst (endpoint c)) (snd (endpoint c))
      (if is_GET c then Default else Passed d) w.
Proof.
  intros H. destruct c; split_arguments H; try discriminate H;
    injection H as <-; run_arguments; cbn [endpoint fst snd is_GET];
    try reflexivity;
    rewrite dict_display_distinct by reflexivity; reflexivity.
Qed.

Lemma validates_false (c : call) :
  validates c = false <-> bind_arguments (parameters c) = None.
Proof.
  unfold validates. induction (parameters c) as [|[[name a] x] ps IH];
    simpl.
  - split; discriminate.
  - destruct (validate a x) as [v|]; simpl; [|tauto].
    rewrite IH. destruct (bind_arguments ps); simpl; split; intros H;
      try discriminate H; reflexivity.
Qed.

(** What [_request] can raise: an error of the transport, or the
    [KeyError] of its loop. *)
Lemma _request_raises (net : network) (self : Lava) (method path : string)
    (data : data_arg) (w : world) (e : exn) :
  fst (_request net self method path data w) = Raise e ->
  (exists t, e = TransportError t) \/ (exists key, e = KeyError key).
Proof.
  unfold _request. unfold bind at 1.
  destruct data as [|d0]; cbn [load]; unfold bind at 1, lift.
  all: match goal with
       | |- context [pop_None ?ks ?d] =>
           destruct (pop_None ks d) as [d'|e'] eqn:E
       end.
  all: try (unfold bind at 1, store; rewrite _request_tail;
            unfold exchange, outcome; simpl;
            destruct (net _) as [t|[[t|j]]]; intros H;
            [injection H as <-; left; now exists t
            |injection H as <-; left; now exists t
            |discriminate H]).
  all: simpl; intros H; injection H as <-; right;
    apply (pop_None_raises _ _ _ E).
Qed.

(** X2: the request of a call carries exactly the parameters that are set:
    a name is bound in the body to a value precisely when the call has a
    parameter of that name whose coerced argument is that value and is not
    [None]. *)
Theorem body_is_the_set_parameters (net : network) (self : Lava) (c : call)
    (w : world) :
  reachable w -> validates c = true ->
  exists r,
    issued w (snd (invoke net self c w)) = [r]
    /\ forall name v,
         dict_get (req_data r) name = Some v
         <-> v <> PyNone
             /\ exists a x,
                  In (name, a, x) (parameters c) /\ validate a x = Some v.
Proof.
  intros Hw Hv. destruct (invoke_reachable net self c w Hw Hv) as [d [Hd ->]].
  rewrite issued_exchange. eexists. split; [reflexivity|].
  intros name v. simpl.
  assert (NoDup (keys d)) as Hnd.
  { apply distinct_NoDup. rewrite (bind_arguments_keys _ _ Hd).
    apply parameters_distinct. }
  rewrite (stripAbsent_get d name v Hnd).
  assert (In (name, v) d
          <-> exists a x,
                In (name, a, x) (parameters c) /\ validate a x = Some v)
    as Hin.
  { clear Hnd Hv. revert d Hd.
    induction (parameters c) as [|[[name' a'] x'] ps IH]; intros d Hd;
      simpl in Hd.
    - injection Hd as <-. split; [intros []|intros [a [x [[] _]]]].
    - destruct (validate a' x') as [v'|] eqn:Ev; [|discriminate].
      destruct (bind_arguments ps) as [d'|]; [|discriminate].
      injection Hd as <-. specialize (IH d' eq_refl). simpl. split.
      + intros [E|Hin].
        * injection E as -> ->. exists a', x'. split; auto.
        * apply IH in Hin. destruct Hin as [a [x [Hin Hx]]].
          exists a, x. split; auto.
      + intros [a [x [[E|Hin] Hx]]].
        * injection E as -> -> ->. left. congruence.
        * right. apply IH. now exists a, x. }
  rewrite Hin. tauto.
Qed.

(** X3: no endpoint call raises [LavaError], whatever the network answers
    and whatever world it runs in. *)
Theorem LavaError_is_never_raised (net : network) (self : Lava) (c : call)
    (w : world) (msg : string) :
  fst (invoke net self c w) <> Raise (LavaError msg).
Proof.
  destruct (bind_arguments (parameters c)) as [d|] eqn:E.
  - rewrite (invoke_request net self c d w E). intros H.
    destruct (_request_raises _ _ _ _ _ _ _ H) as [[t Ht]|[k Hk]];
      discriminate.
  - rewrite (invoke_invalid net self c w E). discriminate.
Qed.

(** X4: when the HTTP request itself fails, the call raises the error of
    the transport as it is; the request was attempted once and is not
    repeated. *)
Theorem connection_failure_is_raised_once (net : network) (self : Lava)
    (c : call) (w : world) (e : transport_exn) :
  reachable w -> validates c = true ->
  (forall r, net r = inl e) ->
  fst (invoke net self c w) = Raise (TransportError e)
  /\ List.length (issued w (snd (invoke net self c w))) = 1.
Proof.
  intros Hw Hv Hnet.
  destruct (invoke_reachable net self c w Hw Hv) as [d [_ ->]].
  rewrite issued_exchange. unfold exchange. simpl. now rewrite Hnet.
Qed.

(** X5: a call raises [ValidationError] exactly when one of its arguments
    is rejected by its annotation, in every world and whatever the network
    would answer; and then the world is left as it was. *)
Theorem ValidationError_iff_rejected_argument (net : network) (self : Lava)
    (c : call) (w : world) :
  (fst (invoke net self c w) = Raise ValidationError <-> validates c = false)
  /\ (validates c = false -> snd (invoke net self c w) = w).
Proof.
  rewrite validates_false.
  destruct (bind_arguments (parameters c)) as [d|] eqn:E.
  - split; [|discriminate]. split; [|discriminate].
    rewrite (invoke_request net self c d w E). intros H.
    destruct (_request_raises _ _ _ _ _ _ _ H) as [[t Ht]|[k Hk]];
      discriminate.
  - rewrite (invoke_invalid net self c w E). simpl. tauto.
Qed.

(** X6: in a reachable world a call has one of three outcomes: it returns
    the object decoded from a JSON document, it raises [ValidationError],
    or it raises an error of the transport. *)
Theorem outcomes_of_a_call (net : network) (self : Lava) (c : call)
    (w : world) :
  reachable w ->
  (exists body, fst (invoke net self c w) = Ok (to_py body))
  \/ fst (invoke net self c w) = Raise ValidationError
  \/ (exists e, fst (invoke net self c w) = Raise (TransportError e)).
Proof.
  intros Hw. destruct (bind_arguments (parameters c)) as [d|] eqn:E.
  - rewrite (invoke_valid net self c d w E (reachable_default_data w Hw)).
    unfold exchange, outcome. simpl.
    destruct (net _) as [t|[[t|j]]].
    + right. right. now exists t.
    + right. right. now exists t.
    + left. now exists j.
  - rewrite (invoke_invalid net self c w E). right. now left.
Qed.

(** X7: calls do not interfere.  In a reachable world a call has the
    outcome and issues the request it would in the initial world; the
    requests logged before it stay as they are. *)
Theorem call_independent_of_history (net : network) (self : Lava)
    (c : call) (w : world) :
  reachable w ->
  fst (invoke net self c w) = fst (invoke net self c initial_world)
  /\ sent (snd (invoke net self c w))
     = sent w ++ sent (snd (invoke net self c initial_world)).
Proof.
  intros Hw. destruct (bind_arguments (parameters c)) as [d|] eqn:E.
  - rewrite (invoke_valid net self c d w E (reachable_default_data w Hw)).
    rewrite (invoke_valid net self c d initial_world E eq_refl).
    split; reflexivity.
  - rewrite !(invoke_invalid net self c _ E). simpl.
    now rewrite app_nil_r.
Qed.

(** X9: the credential goes into the header and nowhere else: two clients
    that differ in their key issue, for the same call, requests with the
    same method, URL and body. *)
Theorem credential_only_in_header (net : network) (self self' : Lava)
    (c : call) (w : world) :
  reachable w ->
  map (fun r => (req_method r, req_url r, req_data r))
    (issued w (snd (invoke net self c w)))
  = map (fun r => (req_method r, req_url r, req_data r))
      (issued w (snd (invoke net self' c w))).
Proof.
  intros Hw. destruct (bind_arguments (parameters c)) as [d|] eqn:E.
  - rewrite !(invoke_valid net _ c d w E (reachable_default_data w Hw)).
    now rewrite !issued_exchange.
  - now rewrite !(invoke_invalid net _ c w E).
Qed.

Lemma run_calls_reachable (cs : list (network * Lava * call)) (w : world) :
  reachable w -> reachable (run_calls cs w).
Proof.
  revert w. induction cs as [|[[net self] c] cs IH]; intros w Hw; simpl.
  - exact Hw.
  - apply IH. now apply reachable_invoke.
Qed.

Lemma run_calls_sent (cs : list (network * Lava * call)) (w : world) :
  reachable w ->
  List.length (sent (run_calls cs w))
  <= List.length (sent w) + List.length cs.
Proof.
  revert w. induction cs as [|[[net self] c] cs IH]; intros w Hw; simpl.
  - lia.
  - specialize (IH _ (reachable_invoke net self c w Hw)).
    destruct (call_independent_of_history net self c w Hw) as [_ Hs].
    rewrite Hs, length_app in IH.
    assert (List.length (sent (snd (invoke net self c initial_world))) <= 1).
    { destruct (bind_arguments (parameters c)) as [d|] eqn:E.
      - rewrite (invoke_valid net self c d initial_world E eq_refl).
        simpl. lia.
      - rewrite (invoke_invalid net self c initial_world E). simpl. lia. }
    lia.
Qed.

(** X8: the dictionary that is the default of [_request]'s [data]
    parameter is shared by all calls and mutated in place by the loop, yet
    it is empty after any sequence of endpoint calls; and a sequence of [n]
    calls has sent at most [n] requests. *)
Theorem default_data_stays_empty (cs : list (network * Lava * call)) :
  default_data (run_calls cs initial_world) = []
  /\ List.length (sent (run_calls cs initial_world)) <= List.length cs.
Proof.
  split.
  - apply reachable_default_data, run_calls_reachable, reachable_initial.
  - apply (run_calls_sent cs initial_world reachable_initial).
Qed.

End Calls.

(** * The example program *)

Section ExampleProgram.

Context {pydantic : Pydantic} {builtins : Builtins}.
Variable net : network.

Lemma quiet_bindP {A B} (m : P A) (k : A -> P B) :
  quiet m -> (forall a, quiet (k a)) -> quiet (bindP m k).
Proof.
  intros Hm Hk s msg. unfold bindP. specialize (Hm s msg).
  destruct (m s) as [[e|a] s']; simpl in *; [|apply Hk].
  intros E. apply Hm. now injection E as ->.
Qed.

Lemma quiet_await_invoke (self : Lava) (c : call) :
  quiet (await (invoke net self c)).
Proof.
  intros [w out] msg. unfold await. simpl.
  pose proof (invoke_not_LavaError net self c w) as H.
  destruct (invoke net self c w) as [[a|e] w']; simpl in *; [discriminate|].
  intros E. injection E as ->. now apply (H msg).
Qed.

Lemma quiet_print (x : pyobj) : quiet (print x).
Proof. intros s msg. discriminate. Qed.

Lemma getitem_0_raises (x : pyobj) (e : uncaught) :
  getitem_0 x = inl e ->
  e = IndexError \/ e = KeyError_0 \/ e = Lib TypeError.
Proof.
  destruct x as [| | | |[|ch s]|[|v xs]| |]; simpl; intros H;
    try discriminate H; injection H as <-; auto.
Qed.

Lemma quiet_getitem_0 (x : pyobj) :
  quiet (fun s => (getitem_0 x, s)).
Proof.
  intros s msg. simpl. intros H.
  destruct (getitem_0_raises _ _ H) as [E|[E|E]]; discriminate E.
Qed.

Lemma quiet_get (x : pyobj) (k : string) : quiet (liftP (get x k)).
Proof.
  intros s msg. unfold liftP.
  destruct x as [| | | | | |kvs|]; simpl; try discriminate.
  destruct (dict_get kvs k); discriminate.
Qed.

Lemma main_try_quiet (client : Lava) : quiet (main_try net client).
Proof.
  unfold main_try.
  apply quiet_bindP; [apply (quiet_await_invoke client Test_ping)|intros].
  apply quiet_bindP; [apply quiet_print|intros].
  apply quiet_bindP; [apply (quiet_await_invoke client Wallet_list)|intros].
  apply quiet_bindP; [apply quiet_print|intros].
  apply quiet_bindP; [apply quiet_getitem_0|intros].
  apply quiet_bindP; [apply quiet_get|intros].
  apply quiet_bindP; [|intros; apply quiet_print].
  apply (quiet_await_invoke client
           (Transactions_list (PyStr "transfer") _ PyNone PyNone PyNone
              PyNone)).
Qed.

(** One awaited endpoint call of the program, in a world where the default
    dictionary is empty. *)
Lemma await_invoke (self : Lava) (c : call) (d : dict)
    (s0 : list request) (out : list string) :
  bind_arguments (parameters c) = Some d ->
  await (invoke net self c) ({| default_data := []; sent := s0 |}, out)
  = let r := the_request self (fst (endpoint c)) (snd (endpoint c))
               (stripAbsent d) in
    (match outcome (net r) with
     | Ok a => inr a
     | Raise e => inl (Lib e)
     end,
     ({| default_data := []; sent := s0 ++ [r] |}, out)).
Proof.
  intros Hd. unfold await. cbn [fst snd].
  rewrite (invoke_valid net self c d {| default_data := []; sent := s0 |}
             Hd eq_refl).
  unfold exchange. cbn [default_data sent].
  destruct (outcome _); reflexivity.
Qed.

(** X10: the [except LavaError] branch of [main] never runs: whatever the
    network answers, [main] does what the body of its [try] statement does
    on its own, and ends the way that body ends. *)
Theorem main_never_handles_LavaError (token : string)
    (s : world * list string) :
  main net token s = main_try net {| api_key := token |} s.
Proof.
  unfold main, bindP, await, __init__, ret. destruct s as [w out].
  cbn [fst snd]. unfold try_except_LavaError.
  pose proof (main_try_quiet {| api_key := token |} (w, out)) as H.
  destruct (main_try net {| api_key := token |} (w, out))
    as [[[[]| |]|[]] s']; try reflexivity.
  now destruct (H msg).
Qed.

Ltac step_await c d Hd :=
  unfold bindP at 1;
  rewrite (await_invoke _ c d _ _ Hd);
  cbv beta iota zeta delta [endpoint fst snd].

Ltac step_print :=
  unfold bindP at 1, print at 1; cbn [fst snd].

(** X11: when the service answers the three requests and the wallet list
    is a list that starts with an object, [main] sends, in this order, [GET
    /test/ping], [GET /wallet/list] and [POST /transactions/list] with
    [transfer_type] and the [account] entry of the first wallet (left out of
    the body when the wallet has none), and prints the three results. *)
Theorem main_prints_three_results (token : string) (w : world)
    (out : list string) (ping transfers : json)
    (wallet : list (string * json)) (wallets : list json)
    (account transfer_type' account' : pyobj) :
  let client := {| api_key := token |} in
  let r1 := the_request client "GET" "/test/ping" [] in
  let r2 := the_request client "GET" "/wallet/list" [] in
  let r3 := the_request client "POST" "/transactions/list"
              (stripAbsent [("transfer_type", transfer_type');
                            ("account", account')]) in
  reachable w ->
  net r1 = decoded ping ->
  net r2 = decoded (JArr (JObj wallet :: wallets)) ->
  get (to_py (JObj wallet)) "account" = Ok account ->
  validate (Optional Str) (PyStr "transfer") = Some transfer_type' ->
  validate (Optional Str) account = Some account' ->
  net r3 = decoded transfers ->
  main net token (w, out)
  = (inr tt,
     ({| default_data := []; sent := sent w ++ [r1; r2; r3] |},
      out ++ [format (to_py ping);
              format (to_py (JArr (JObj wallet :: wallets)));
              format (to_py transfers)])).
Proof.
  intros client r1 r2 r3 Hw H1 H2 Hacc Ht Ha H3.
  destruct w as [dd s0]. pose proof (reachable_default_data _ Hw) as Hdd.
  simpl in Hdd. subst dd. cbn [sent].
  assert (bind_arguments
            (parameters (Transactions_list (PyStr "transfer") account PyNone
                           PyNone PyNone PyNone))
          = Some [("transfer_type", transfer_type'); ("account", account');
                  ("period_start", PyNone); ("period_end", PyNone);
                  ("offset", PyNone); ("limit", PyNone)]) as Hd.
  { cbn [bind_arguments parameters]. rewrite Ht, Ha. reflexivity. }
  assert (main_try net client ({| default_data := []; sent := s0 |}, out)
          = (inr tt,
             ({| default_data := []; sent := s0 ++ [r1; r2; r3] |},
              out ++ [format (to_py ping);
                      format (to_py (JArr (JObj wallet :: wallets)));
                      format (to_py transfers)]))) as E.
  { unfold main_try.
    change (test_ping net client) with (invoke net client Test_ping).
    step_await Test_ping (@nil (string * pyobj))
      (eq_refl : bind_arguments (parameters Test_ping) = Some []).
    change (stripAbsent []) with (@nil (string * pyobj)).
    fold client r1. rewrite H1. cbv beta iota delta [decoded outcome].
    step_print.
    change (wallet_list net client) with (invoke net client Wallet_list).
    step_await Wallet_list (@nil (string * pyobj))
      (eq_refl : bind_arguments (parameters Wallet_list) = Some []).
    change (stripAbsent []) with (@nil (string * pyobj)).
    fold r2. rewrite H2. cbv beta iota delta [decoded outcome].
    step_print.
    unfold bindP at 1. cbn [to_py map getitem_0].
    unfold bindP at 1. cbn [to_py] in Hacc. rewrite Hacc. cbn [liftP].
    change (transactions_list net client (PyStr "transfer") account PyNone
              PyNone PyNone PyNone)
      with (invoke net client
              (Transactions_list (PyStr "transfer") account PyNone PyNone
                 PyNone PyNone)).
    step_await (Transactions_list (PyStr "transfer") account PyNone PyNone
                  PyNone PyNone)
      [("transfer_type", transfer_type'); ("account", account');
       ("period_start", PyNone); ("period_end", PyNone);
       ("offset", PyNone); ("limit", PyNone)] Hd.
    change (the_request client "POST" "/transactions/list" _) with r3.
    rewrite H3. cbv beta iota delta [decoded outcome].
    unfold print. cbn [fst snd to_py map].
    rewrite <- !app_assoc. reflexivity. }
  unfold main, bindP, await, __init__, ret. cbn [fst snd].
  fold client. unfold try_except_LavaError. now rewrite E.
Qed.

(** X12: when the answer to [wallet_list] has no first element to take (an
    empty list, an object such as an error body, [null], a number), [main]
    ends with the exception of [all_wallets[0]], which its handler does not
    catch: it has printed two results and sent two requests, and the
    transactions are not asked for. *)
Theorem main_stops_without_first_wallet (token : string) (w : world)
    (out : list string) (ping wallets : json) (e : uncaught) :
  let client := {| api_key := token |} in
  let r1 := the_request client "GET" "/test/ping" [] in
  let r2 := the_request client "GET" "/wallet/list" [] in
  reachable w ->
  net r1 = decoded ping ->
  net r2 = decoded wallets ->
  getitem_0 (to_py wallets) = inl e ->
  main net token (w, out)
  = (inl e,
     ({| default_data := []; sent := sent w ++ [r1; r2] |},
      out ++ [format (to_py ping); format (to_py wallets)])).
Proof.
  intros client r1 r2 Hw H1 H2 He.
  destruct w as [dd s0]. pose proof (reachable_default_data _ Hw) as Hdd.
  simpl in Hdd. subst dd. cbn [sent].
  assert (main_try net client ({| default_data := []; sent := s0 |}, out)
          = (inl e,
             ({| default_data := []; sent := s0 ++ [r1; r2] |},
              out ++ [format (to_py ping); format (to_py wallets)]))) as E.
  { unfold main_try.
    change (test_ping net client) with (invoke net client Test_ping).
    step_await Test_ping (@nil (string * pyobj))
      (eq_refl : bind_arguments (parameters Test_ping) = Some []).
    change (stripAbsent []) with (@nil (string * pyobj)).
    fold client r1. rewrite H1. cbv beta iota delta [decoded outcome].
    step_print.
    change (wallet_list net client) with (invoke net client Wallet_list).
    step_await Wallet_list (@nil (string * pyobj))
      (eq_refl : bind_arguments (parameters Wallet_list) = Some []).
    change (stripAbsent []) with (@nil (string * pyobj)).
    fold r2. rewrite H2. cbv beta iota delta [decoded outcome].
    step_print.
    unfold bindP at 1. rewrite He.
    rewrite <- !app_assoc. reflexivity. }
  unfold main, bindP, await, __init__, ret. cbn [fst snd].
  fold client. unfold try_except_LavaError. rewrite E.
  destruct (getitem_0_raises _ _ He) as [->|[->| ->]]; reflexivity.
Qed.

End ExampleProgram.

(** ** The further properties on examples *)

Lemma body_is_the_set_parameters_example :
  let c := Withdraw_create (PyStr "R10000001")
             (PyFloat (S754_finite false 5 1)) (PyStr "card")
             (PyStr "4111111111111111") PyNone
             (PyStr "https://lava.ru?hook") PyNone PyNone in
  exists r,
    issued initial_world
      (snd (@invoke strict_pydantic plain_builtins
              (always (decoded (JObj []))) client c initial_world)) = [r]
    /\ forall name v,
         dict_get (req_data r) name = Some v
         <-> v <> PyNone
             /\ exists a x,
                  In (name, a, x) (parameters c)
                  /\ @validate strict_pydantic a x = Some v.
Proof.
  intros c.
  apply (@body_is_the_set_parameters strict_pydantic plain_builtins
           (always (decoded (JObj []))) client c initial_world).
  - apply reachable_initial.
  - reflexivity.
Defined.

Lemma connection_failure_is_raised_once_example :
  let net := always (inl ServerTimeoutError) in
  fst (@invoke strict_pydantic plain_builtins net client Wallet_list
         initial_world)
  = Raise (TransportError ServerTimeoutError)
  /\ List.length
       (issued initial_world
          (snd (@invoke strict_pydantic plain_builtins net client Wallet_list
                  initial_world))) = 1.
Proof.
  intros net.
  apply (@connection_failure_is_raised_once strict_pydantic plain_builtins
           net client Wallet_list initial_world ServerTimeoutError).
  - apply reachable_initial.
  - reflexivity.
  - reflexivity.
Defined.

Lemma outcomes_of_a_call_example :
  let r := fst (@invoke strict_pydantic plain_builtins sandbox client
                  (Withdraw_info (PyInt 7)) initial_world) in
  (exists body, r = Ok (to_py body))
  \/ r = Raise ValidationError
  \/ (exists e, r = Raise (TransportError e)).
Proof.
  intros r.
  apply (@outcomes_of_a_call strict_pydantic plain_builtins sandbox client
           (Withdraw_info (PyInt 7)) initial_world).
  apply reachable_initial.
Defined.

Lemma call_independent_of_history_example :
  let w := @run_calls strict_pydantic plain_builtins
             [(sandbox, client, Test_ping);
              (always (inl ClientConnectorError), client, Wallet_list)]
             initial_world in
  let c := Transfer_info (PyStr "c3d3702b") in
  fst (@invoke strict_pydantic plain_builtins sandbox client c w)
  = fst (@invoke strict_pydantic plain_builtins sandbox client c
           initial_world)
  /\ sent (snd (@invoke strict_pydantic plain_builtins sandbox client c w))
     = sent w
       ++ sent (snd (@invoke strict_pydantic plain_builtins sandbox client c
                       initial_world)).
Proof.
  intros w c.
  apply (@call_independent_of_history strict_pydantic plain_builtins sandbox
           client c w).
  apply reachable_invoke, reachable_invoke, reachable_initial.
Defined.

Lemma credential_only_in_header_example :
  let c := Invoice_set_webhook (PyStr "https://lava.ru?hook") in
  map (fun r => (req_method r, req_url r, req_data r))
    (issued initial_world
       (snd (@invoke strict_pydantic plain_builtins sandbox client c
               initial_world)))
  = map (fun r => (req_method r, req_url r, req_data r))
      (issued initial_world
         (snd (@invoke strict_pydantic plain_builtins sandbox
                 {| api_key := "" |} c initial_world))).
Proof.
  intros c.
  apply (@credential_only_in_header strict_pydantic plain_builtins sandbox
           client {| api_key := "" |} c initial_world).
  apply reachable_initial.
Defined.

Lemma main_prints_three_results_example :
  @main strict_pydantic plain_builtins sandbox "your_token_here"
    (initial_world, [])
  = (inr tt,
     ({| default_data := [];
         sent :=
           [the_request client "GET" "/test/ping" [];
            the_request client "GET" "/wallet/list" [];
            the_request client "POST" "/transactions/list"
              [("transfer_type", PyStr "transfer");
               ("account", PyStr "R10000001")]] |},
      [@format plain_builtins (PyDict [("status", PyBool true)]);
       @format plain_builtins (to_py wallets_body);
       @format plain_builtins (PyList [])])).
Proof.
  apply (@main_prints_three_results strict_pydantic plain_builtins sandbox
           "your_token_here" initial_world []
           (JObj [("status", JBool true)]) (JArr [])
           [("account", JStr "R10000001"); ("currency", JStr "RUB");
            ("balance", JStr "1500.00")]
           [] (PyStr "R10000001") (PyStr "transfer") (PyStr "R10000001")).
  - apply reachable_initial.
  - reflexivity.
  - reflexivity.
  - reflexivity.
  - reflexivity.
  - reflexivity.
  - reflexivity.
Defined.

Lemma main_stops_without_first_wallet_example :
  @main strict_pydantic plain_builtins sandbox_no_wallets "your_token_here"
    (initial_world, [])
  = (inl IndexError,
     ({| default_data := [];
         sent := [the_request client "GET" "/test/ping" [];
                  the_request client "GET" "/wallet/list" []] |},
      [@format plain_builtins (PyDict [("status", PyBool true)]);
       @format plain_builtins (PyList [])])).
Proof.
  apply (@main_stops_without_first_wallet strict_pydantic plain_builtins
           sandbox_no_wallets "your_token_here" initial_world []
           (JObj [("status", JBool true)]) (JArr []) IndexError).
  - apply reachable_initial.
  - reflexivity.
  - reflexivity.
  - reflexivity.
Defined.
